(** * global_params: the parameter module of the SDSS/ACT kSZ pipeline

    A shallow embedding of [05_sdss_pipeline/global_params.py].  The module
    is a sequence of global assignments; two of them call [numpy.linspace],
    two call [numpy.geomspace], one builds an array by slicing and elementwise
    arithmetic, one is a dict display.

    Numbers are modelled as Python has them: [int] as [Z], [float] and the
    elements of a float64 [ndarray] as IEEE 754 binary64 values, computed
    with the reference implementation [SpecFloat] of the standard library
    (round to nearest, ties to even).  The module namespace is a finite map
    from names to values, and the module body is a state-and-error
    computation over it. *)

From Stdlib Require Import ZArith QArith Qabs Bool List String Lia.
From Stdlib Require Import Floats.SpecFloat.
From stdpp Require Import base option list gmap strings.

Local Open Scope Z_scope.

(** ** IEEE 754 binary64 *)

Module F64.

Definition prec : Z := 53.
Definition emax : Z := 1024.

Definition t : Type := spec_float.

Definition add : t -> t -> t := SFadd prec emax.
Definition sub : t -> t -> t := SFsub prec emax.
Definition mul : t -> t -> t := SFmul prec emax.
Definition div : t -> t -> t := SFdiv prec emax.

(** [==] and [<] of Python floats: false whenever an operand is NaN,
    and [-0.0 == 0.0]. *)
Definition eqb : t -> t -> bool := SFeqb.
Definition ltb : t -> t -> bool := SFltb.

(** [float(z)]: the integer rounded to the nearest binary64 value
    (exact when [|z| <= 2^53]). *)
Definition of_Z (z : Z) : t := binary_normalize prec emax z 0 false.

(** A decimal literal [m * 10^(-k)] of the source text.  Python reads a
    literal as the binary64 value nearest to the decimal; when [m] and
    [10^k] are below [2^53] both are exact in binary64 and one correctly
    rounded division gives that value. *)
Definition dec (m : Z) (k : Z) : t := div (of_Z m) (of_Z (10 ^ k)).

Definition zero : t := S754_zero false.
Definition one : t := of_Z 1.
Definition two : t := of_Z 2.
Definition nan : t := S754_nan.

(** [numpy.sign] on a float64. *)
Definition sign (x : t) : t :=
  if ltb x zero then of_Z (-1)
  else if ltb zero x then one
  else if eqb x zero then zero
  else nan.

(** The exact rational value of a finite binary64 number; [None] for
    infinities and NaN. *)
Definition toQ (x : t) : option Q :=
  match x with
  | S754_zero _ => Some (0 # 1)%Q
  | S754_finite s m e =>
      let n := if s then Z.neg m else Z.pos m in
      Some (match e with
            | Z.neg p => (n # (2 ^ p)%positive)%Q
            | _ => inject_Z (n * 2 ^ e)
            end)
  | _ => None
  end.

(** [within x q tol]: [x] is finite and its exact value is at most [tol]
    away from the rational [q]. *)
Definition within (x : t) (q tol : Q) : bool :=
  match toQ x with
  | Some v => Qle_bool (Qabs (v - q)) tol
  | None => false
  end.

(** [gap_within x y q tol]: [x] and [y] are finite and the exact
    difference [y - x] is at most [tol] away from the rational [q]. *)
Definition gap_within (x y : t) (q tol : Q) : bool :=
  match toQ x, toQ y with
  | Some u, Some v => Qle_bool (Qabs (v - u - q)) tol
  | _, _ => false
  end.

End F64.

Declare Scope f64_scope.
Delimit Scope f64_scope with F.
Bind Scope f64_scope with F64.t.
Infix "+" := F64.add : f64_scope.
Infix "-" := F64.sub : f64_scope.
Infix "*" := F64.mul : f64_scope.
Infix "/" := F64.div : f64_scope.
Infix "==" := F64.eqb (at level 70, no associativity) : f64_scope.
Infix "<" := F64.ltb : f64_scope.

(** ** Python values, exceptions and results *)

(** The values the module binds.  A one-dimensional float64 [ndarray] is a
    [list F64.t]; the dict of line 29 maps [int] keys to floats. *)
Inductive value : Type :=
  | VInt (z : Z)
  | VFloat (x : F64.t)
  | VStr (s : string)
  | VArray (a : list F64.t)
  | VDict (d : gmap Z F64.t)
  | VModule (name : string).

Inductive exn : Type :=
  | ValueError (msg : string)
  | KeyError (key : Z)
  | IndexError (index : Z)
  | NameError (name : string)
  | TypeError (name : string)
  | AttributeError (name : string).

(** The name of the exception's class, as [type(e).__name__] gives it. *)
Definition exn_class (e : exn) : string :=
  match e with
  | ValueError _ => "ValueError"
  | KeyError _ => "KeyError"
  | IndexError _ => "IndexError"
  | NameError _ => "NameError"
  | TypeError _ => "TypeError"
  | AttributeError _ => "AttributeError"
  end.

Inductive result (A : Type) : Type :=
  | Ok (a : A)
  | Raise (e : exn).
Arguments Ok {A} a.
Arguments Raise {A} e.

Definition rbind {A B : Type} (r : result A) (k : A -> result B) : result B :=
  match r with
  | Ok a => k a
  | Raise e => Raise e
  end.

Declare Scope result_scope.
Delimit Scope result_scope with result.
Notation "'let?' x := r 'in' k" := (rbind r (fun x => k))
  (at level 10, x name, r at level 100, k at level 200) : result_scope.
Local Open Scope result_scope.

(** [d[k]] on a dict: the value, or [KeyError]. *)
Definition getitem_dict (d : gmap Z F64.t) (k : Z) : result F64.t :=
  match d !! k with
  | Some v => Ok v
  | None => Raise (KeyError k)
  end.

(** ** The parts of numpy the module uses *)

(** The two transcendental functions behind [numpy.log10] and
    [numpy.power].  numpy takes them from the platform's C library, which
    does not fix their results bit for bit, so they are an interface here:
    any pair of functions on binary64 values. *)
Class Libm : Type := {
  log10 : F64.t -> F64.t;
  power : F64.t -> F64.t -> F64.t
}.

Module np.

(** [a[i] = v], with Python's negative indices; [IndexError] out of range. *)
Definition setitem (a : list F64.t) (i : Z) (v : F64.t) : result (list F64.t) :=
  let n := Z.of_nat (length a) in
  let j := if i <? 0 then i + n else i in
  if (0 <=? j) && (j <? n) then Ok (<[Z.to_nat j := v]> a)
  else Raise (IndexError i).

(** [a[1:]] and [a[:-1]]. *)
Definition slice_from_1 (a : list F64.t) : list F64.t := drop 1 a.
Definition slice_to_m1 (a : list F64.t) : list F64.t := take (length a - 1) a.

(** [a + b] on arrays: elementwise, an array of length one is broadcast,
    other length mismatches raise [ValueError]. *)
Definition add (a b : list F64.t) : result (list F64.t) :=
  if (length a =? length b)%nat then Ok (zip_with F64.add a b)
  else match a, b with
       | [x], _ => Ok (map (fun y => x + y)%F b)
       | _, [y] => Ok (map (fun x => x + y)%F a)
       | _, _ => Raise (ValueError "operands could not be broadcast together")
       end.

(** [a / c] for a scalar [c]. *)
Definition divide_scalar (a : list F64.t) (c : F64.t) : list F64.t :=
  map (fun x => x / c)%F a.

(** [arange(0, num, dtype=float64)]. *)
Definition arange (num : Z) : list F64.t :=
  map (fun i => F64.of_Z (Z.of_nat i)) (seq 0 (Z.to_nat num)).

(** [numpy.linspace(start, stop, num)] for scalar arguments, with the
    defaults [endpoint=True], [retstep=False], [dtype=None].  ([div] and
    [delta] are numpy's names; its error message also quotes [num].) *)
Definition linspace (start stop : F64.t) (num : Z) : result (list F64.t) :=
  if num <? 0 then
    Raise (ValueError "Number of samples must be non-negative.")
  else
    let div := num - 1 in
    let delta := (stop - start)%F in
    let y := arange num in
    let y :=
      if 0 <? div then
        let step := (delta / F64.of_Z div)%F in
        if (step == F64.zero)%F then
          map (fun v => (v / F64.of_Z div * delta)%F) y
        else
          map (fun v => (v * step)%F) y
      else
        map (fun v => (v * delta)%F) y in
    let y := map (fun v => (v + start)%F) y in
    if 1 <? num then setitem y (-1) stop else Ok y.

Section Transcendental.
Context `{Libm}.

(** [numpy.logspace(start, stop, num, base=10.0)]. *)
Definition logspace (start stop : F64.t) (num : Z) : result (list F64.t) :=
  let? y := linspace start stop num in
  Ok (map (power (F64.of_Z 10)) y).

(** [numpy.geomspace(start, stop, num)] for real scalar arguments, with
    the default [endpoint=True]: evenly spaced exponents through
    [logspace], then the two ends overwritten with [start] and [stop]. *)
Definition geomspace (start stop : F64.t) (num : Z) : result (list F64.t) :=
  if (start == F64.zero)%F || (stop == F64.zero)%F then
    Raise (ValueError "Geometric sequence cannot include zero")
  else
    let out_sign := F64.sign start in
    let start := (start / out_sign)%F in
    let stop := (stop / out_sign)%F in
    let log_start := log10 start in
    let log_stop := log10 stop in
    let? result := logspace log_start log_stop num in
    let? result :=
      if 0 <? num then
        let? result := setitem result 0 start in
        if 1 <? num then setitem result (-1) stop else Ok result
      else Ok result in
    Ok (map (fun v => (v * out_sign)%F) result).

End Transcendental.

End np.

(** ** The module *)

(** The module's global namespace ([global_params.__dict__]) is a
    [gmap string value].  A statement runs in a namespace and either raises
    or leaves a new one. *)
Definition stmt : Type := gmap string value -> result (gmap string value).

(** [x = v]. *)
Definition assign (x : string) (v : value) : stmt :=
  fun ns => Ok (<[x := v]> ns).

(** Reading a global name: its binding, or [NameError]. *)
Definition name (x : string) (ns : gmap string value) : result value :=
  match ns !! x with
  | Some v => Ok v
  | None => Raise (NameError x)
  end.

Definition as_int (v : value) : result Z :=
  match v with
  | VInt z => Ok z
  | _ => Raise (TypeError "int")
  end.

Definition as_array (v : value) : result (list F64.t) :=
  match v with
  | VArray a => Ok a
  | _ => Raise (TypeError "ndarray")
  end.

(** [x = e], where the expression [e] reads the namespace and may raise. *)
Definition assign_expr (x : string)
    (e : gmap string value -> result value) : stmt :=
  fun ns => let? v := e ns in Ok (<[x := v]> ns).

Definition seq_stmt (s1 s2 : stmt) : stmt :=
  fun ns => let? ns' := s1 ns in s2 ns'.

Declare Scope stmt_scope.
Delimit Scope stmt_scope with stmt.
Bind Scope stmt_scope with stmt.
Notation "s1 ;; s2" := (seq_stmt s1 s2)
  (at level 100, s2 at level 200, right associativity) : stmt_scope.

(** The literals of the source text that the specification treats as
    configuration: the bin count of line 9 and the bounds of the two
    geometric grids of lines 16 and 17. *)
Record config : Type := {
  cfg_nkbins : Z;
  cfg_ks : F64.t * F64.t;
  cfg_ms : F64.t * F64.t
}.

(** The configuration written in the source file. *)
Definition source_config : config := {|
  cfg_nkbins := 100;
  cfg_ks := (F64.dec 1 5, F64.of_Z 100);
  cfg_ms := (F64.of_Z (2 * 10 ^ 10), F64.of_Z (10 ^ 17))
|}.

Definition with_nkbins (n : Z) : config := {|
  cfg_nkbins := n;
  cfg_ks := cfg_ks source_config;
  cfg_ms := cfg_ms source_config
|}.

(** The dict display of line 29. *)
Definition act_rms_threshold : gmap Z F64.t :=
  <[90 := F64.of_Z 70]> (<[150 := F64.of_Z 70]> ∅).

Section Body.
Context `{Libm}.
Variable cfg : config.

(** Line 10: [np.linspace(0, 0.3, nkbins+1)]. *)
Definition kbin_edges_expr (ns : gmap string value) : result value :=
  let? v := name "nkbins" ns in
  let? nkbins := as_int v in
  let? a := np.linspace (F64.of_Z 0) (F64.dec 3 1) (nkbins + 1) in
  Ok (VArray a).

(** Line 11: [(kbin_edges[1:] + kbin_edges[:-1]) / 2.]. *)
Definition kbin_centers_expr (ns : gmap string value) : result value :=
  let? v := name "kbin_edges" ns in
  let? lhs := as_array v in
  let? v := name "kbin_edges" ns in
  let? rhs := as_array v in
  let? s := np.add (np.slice_from_1 lhs) (np.slice_to_m1 rhs) in
  Ok (VArray (np.divide_scalar s F64.two)).

(** Lines 16 and 17. *)
Definition geomspace_expr (bounds : F64.t * F64.t) (num : Z)
    (ns : gmap string value) : result value :=
  let? a := np.geomspace (fst bounds) (snd bounds) num in
  Ok (VArray a).

(** The module body, statement by statement. *)
Definition body : stmt :=
 (assign "np" (VModule "numpy") ;;
  assign "ksz_lmin" (VInt 1500) ;;
  assign "ksz_lmax" (VInt 8000) ;;
  assign "nkbins" (VInt (cfg_nkbins cfg)) ;;
  assign_expr "kbin_edges" kbin_edges_expr ;;
  assign_expr "kbin_centers" kbin_centers_expr ;;
  assign_expr "hmodel_ks" (geomspace_expr (cfg_ks cfg) 1000) ;;
  assign_expr "hmodel_ms" (geomspace_expr (cfg_ms cfg) 40) ;;
  assign "hmodel_minz" (VFloat (F64.dec 43 2)) ;;
  assign "hmodel_maxz" (VFloat (F64.dec 7 1)) ;;
  assign "hmodel_zeff" (VFloat (F64.dec 55 2)) ;;
  assign "hmodel_ngal" (VFloat (F64.dec 1 4)) ;;
  assign "galmask_sky_percentage" (VInt 70) ;;
  assign "galmask_apodization" (VInt 0) ;;
  assign "act_dr" (VInt 5) ;;
  assign "act_rms_threshold" (VDict act_rms_threshold) ;;
  assign "sdss_survey" (VStr "CMASS_North") ;;
  assign "sdss_rpad" (VInt 500) ;;
  assign "sdss_pixsize" (VInt 10) ;;
  assign "sdss_zmin" (VFloat (F64.dec 43 2)) ;;
  assign "sdss_zmax" (VFloat (F64.dec 7 1)) ;;
  assign "sdss_zeff" (VFloat (F64.dec 57 2)) ;;
  assign "sdss_mock_type" (VStr "qpm") ;;
  assign "sdss_nmocks" (VInt 1000) ;;
  assign "surr_bg" (VFloat (F64.dec 238 2)) ;;
  assign "surr_bv" (VFloat (F64.dec 3 1)) ;;
  assign "surr_fnl" (VInt 250) ;;
  assign "num_surrogates" (VInt 1000))%stmt.

(** Importing the module runs the body in a fresh namespace. *)
Definition load : result (gmap string value) := body ∅.

End Body.

(** [module.x]: the binding of [x] after a load, [AttributeError] when the
    module has no such name; a failed load fails the same way. *)
Definition getattr (m : result (gmap string value)) (x : string)
    : result value :=
  let? ns := m in
  match ns !! x with
  | Some v => Ok v
  | None => Raise (AttributeError x)
  end.

(** The names the module body binds, in source order. *)
Definition module_names : list string :=
  [ "np"; "ksz_lmin"; "ksz_lmax"; "nkbins"; "kbin_edges"; "kbin_centers";
    "hmodel_ks"; "hmodel_ms"; "hmodel_minz"; "hmodel_maxz"; "hmodel_zeff";
    "hmodel_ngal"; "galmask_sky_percentage"; "galmask_apodization";
    "act_dr"; "act_rms_threshold"; "sdss_survey"; "sdss_rpad";
    "sdss_pixsize"; "sdss_zmin"; "sdss_zmax"; "sdss_zeff"; "sdss_mock_type";
    "sdss_nmocks"; "surr_bg"; "surr_bv"; "surr_fnl"; "num_surrogates" ]%string.

(** The bindings a load that does not raise leaves behind, in source
    order, given the four arrays it computed. *)
Definition bindings (cfg : config) (edges centers ks ms : list F64.t)
    : list (string * value) :=
  [ ("np", VModule "numpy");
    ("ksz_lmin", VInt 1500);
    ("ksz_lmax", VInt 8000);
    ("nkbins", VInt (cfg_nkbins cfg));
    ("kbin_edges", VArray edges);
    ("kbin_centers", VArray centers);
    ("hmodel_ks", VArray ks);
    ("hmodel_ms", VArray ms);
    ("hmodel_minz", VFloat (F64.dec 43 2));
    ("hmodel_maxz", VFloat (F64.dec 7 1));
    ("hmodel_zeff", VFloat (F64.dec 55 2));
    ("hmodel_ngal", VFloat (F64.dec 1 4));
    ("galmask_sky_percentage", VInt 70);
    ("galmask_apodization", VInt 0);
    ("act_dr", VInt 5);
    ("act_rms_threshold", VDict act_rms_threshold);
    ("sdss_survey", VStr "CMASS_North");
    ("sdss_rpad", VInt 500);
    ("sdss_pixsize", VInt 10);
    ("sdss_zmin", VFloat (F64.dec 43 2));
    ("sdss_zmax", VFloat (F64.dec 7 1));
    ("sdss_zeff", VFloat (F64.dec 57 2));
    ("sdss_mock_type", VStr "qpm");
    ("sdss_nmocks", VInt 1000);
    ("surr_bg", VFloat (F64.dec 238 2));
    ("surr_bv", VFloat (F64.dec 3 1));
    ("surr_fnl", VInt 250);
    ("num_surrogates", VInt 1000) ].

(** Binding a list of names, first to last, in a namespace. *)
Definition bind_all (bs : list (string * value)) (ns : gmap string value)
    : gmap string value :=
  foldl (fun m b => <[fst b := snd b]> m) ns bs.

(** The midpoints of consecutive elements, as line 11 computes them. *)
Definition midpoints (a : list F64.t) : list F64.t :=
  np.divide_scalar (zip_with F64.add (drop 1 a) (take (length a - 1) a))
    F64.two.

(** The binding of [x] after [bind_all bs], as the last pair for [x] in
    [bs], or else the prior binding [d]. *)
Fixpoint lookup_bindings (x : string) (bs : list (string * value))
    (d : option value) : option value :=
  match bs with
  | [] => d
  | b :: bs' =>
      lookup_bindings x bs' (if decide (fst b = x) then Some (snd b) else d)
  end.

(** A decision procedure for properties of the consecutive pairs
    [(l[i], l[i+1])], [i < n], of an array. *)
Definition check_pairs (P : nat -> F64.t -> F64.t -> bool)
    (l : list F64.t) (n : nat) : bool :=
  forallb (fun i => match l !! i, l !! S i with
                    | Some a, Some b => P i a b
                    | _, _ => false
                    end) (seq 0 n).

(** An inhabitant of the [Libm] interface, to instantiate statements that
    hold for every libm; its two functions are not those of a C library. *)
Definition libm_any : Libm := {|
  log10 := fun x => x;
  power := fun _ x => x
|}.





(** The test at the head of [geomspace], on a pair of bounds. *)
Definition has_zero_bound (b : F64.t * F64.t) : bool :=
  (fst b == F64.zero)%F || (snd b == F64.zero)%F.

(** A decision procedure for the bins of bin count [n]: the first edge is
    [+0.0], and for each of the [n] bins the lower edge is below the upper
    edge with the midpoint of line 11 strictly between them. *)
Definition bins_ok (n : nat) : bool :=
  match np.linspace (F64.of_Z 0) (F64.dec 3 1) (Z.of_nat n + 1) with
  | Ok e =>
      match e !! 0%nat with Some (S754_zero false) => true | _ => false end
      && check_pairs (fun _ a b =>
                        let c := ((a + b) / F64.two)%F in
                        (a < b)%F && (a < c)%F && (c < b)%F) e n
  | Raise _ => false
  end.

(** A decision procedure for the accuracy of the bins of bin count [n]:
    both edges of every bin and its midpoint are within [2^-53] of the
    exact grid points [i * 0.3 / n], [(i+1) * 0.3 / n] and
    [(2i+1) * 0.3 / (2n)]. *)
Definition bins_accurate (n : nat) : bool :=
  match np.linspace (F64.of_Z 0) (F64.dec 3 1) (Z.of_nat n + 1) with
  | Ok e =>
      let d := Z.to_pos (Z.of_nat n) in
      check_pairs (fun i a b =>
                     F64.within a (3 * Z.of_nat i # 10 * d) (1 # 2 ^ 53)
                     && F64.within b (3 * Z.of_nat (S i) # 10 * d) (1 # 2 ^ 53)
                     && F64.within ((a + b) / F64.two)%F
                          (3 * (2 * Z.of_nat i + 1) # 20 * d) (1 # 2 ^ 53))
        e n
  | Raise _ => false
  end.

(** * Properties *)

(** ** binary64 arithmetic *)

Lemma F64_add_comm (x y : F64.t) : (x + y)%F = (y + x)%F.
Proof.
  destruct x as [sx|sx| |sx mx ex], y as [sy|sy| |sy my ey];
    try reflexivity; try (destruct sx, sy; reflexivity).
  unfold F64.add, SFadd.
  rewrite (Z.min_comm ey ex).
  f_equal. apply Z.add_comm.
Qed.

(** ** numpy *)

Lemma length_arange (num : Z) : length (np.arange num) = Z.to_nat num.
Proof. unfold np.arange. now rewrite length_map, length_seq. Qed.

Lemma setitem_last (a : list F64.t) (v : F64.t) :
  a <> [] ->
  np.setitem a (-1) v = Ok (<[Nat.pred (length a) := v]> a).
Proof.
  intros Ha. unfold np.setitem.
  assert (0 < length a)%nat by (destruct a; [congruence | simpl; lia]).
  replace (-1 <? 0) with true by reflexivity.
  replace ((0 <=? -1 + Z.of_nat (length a))
           && (-1 + Z.of_nat (length a) <? Z.of_nat (length a))) with true
    by (symmetry; apply andb_true_intro; split;
        [apply Z.leb_le | apply Z.ltb_lt]; lia).
  do 2 f_equal. lia.
Qed.

Lemma setitem_first (a : list F64.t) (v : F64.t) :
  a <> [] -> np.setitem a 0 v = Ok (<[0%nat := v]> a).
Proof.
  intros Ha. unfold np.setitem.
  assert (0 < length a)%nat by (destruct a; [congruence | simpl; lia]).
  replace (0 <? 0) with false by reflexivity.
  replace ((0 <=? 0) && (0 <? Z.of_nat (length a))) with true
    by (symmetry; apply andb_true_intro; split;
        [apply Z.leb_le | apply Z.ltb_lt]; lia).
  reflexivity.
Qed.

Lemma linspace_raises (start stop : F64.t) (num : Z) :
  num < 0 ->
  np.linspace start stop num
  = Raise (ValueError "Number of samples must be non-negative.").
Proof.
  intros Hn. unfold np.linspace.
  now replace (num <? 0) with true by (symmetry; apply Z.ltb_lt; lia).
Qed.

Lemma linspace_ok (start stop : F64.t) (num : Z) :
  0 <= num ->
  exists a, np.linspace start stop num = Ok a
            /\ length a = Z.to_nat num
            /\ (1 < num -> a !! Nat.pred (Z.to_nat num) = Some stop).
Proof.
  intros Hn. unfold np.linspace.
  replace (num <? 0) with false by (symmetry; apply Z.ltb_ge; lia).
  set (y := map _ (if 0 <? num - 1 then _ else _)).
  assert (Hy : length y = Z.to_nat num).
  { subst y. rewrite length_map.
    destruct (0 <? num - 1); [destruct (_ == _)%F |];
      now rewrite length_map, length_arange. }
  destruct (Z.ltb_spec 1 num) as [H1|H1].
  - rewrite setitem_last by (intros ->; simpl in Hy; lia).
    eexists; split; [reflexivity |]. rewrite length_insert. split; [exact Hy |].
    intros _. rewrite Hy. apply list_lookup_insert_eq. lia.
  - exists y. split; [reflexivity |]. split; [exact Hy | lia].
Qed.

(** Away from the last sample, [linspace] with a nonzero step returns
    [i * step + start] with the one step [(stop - start) / (num - 1)]. *)
Lemma linspace_interior (start stop : F64.t) (num : Z) (a : list F64.t)
    (i : nat) :
  np.linspace start stop num = Ok a ->
  ((stop - start) / F64.of_Z (num - 1) == F64.zero)%F = false ->
  (S i < Z.to_nat num)%nat ->
  a !! i
  = Some (F64.of_Z (Z.of_nat i) * ((stop - start) / F64.of_Z (num - 1))
          + start)%F.
Proof.
  intros Ha Hstep Hi. unfold np.linspace in Ha.
  replace (num <? 0) with false in Ha by (symmetry; apply Z.ltb_ge; lia).
  replace (0 <? num - 1) with true in Ha by (symmetry; apply Z.ltb_lt; lia).
  replace (1 <? num) with true in Ha by (symmetry; apply Z.ltb_lt; lia).
  rewrite Hstep in Ha.
  rewrite setitem_last in Ha
    by (intros E; apply (f_equal length) in E;
        rewrite !length_map, length_arange in E; simpl in E; lia).
  injection Ha as <-.
  rewrite !length_map, length_arange.
  rewrite list_lookup_insert_ne by lia.
  unfold np.arange. rewrite !list_lookup_fmap, lookup_seq_lt by lia.
  reflexivity.
Qed.

Lemma add_slices (a : list F64.t) :
  np.add (np.slice_from_1 a) (np.slice_to_m1 a)
  = Ok (zip_with F64.add (drop 1 a) (take (length a - 1) a)).
Proof.
  unfold np.add, np.slice_from_1, np.slice_to_m1.
  replace (length (drop 1 a) =? length (take (length a - 1) a))%nat with true;
    [reflexivity |].
  symmetry. apply Nat.eqb_eq. rewrite length_drop, length_take. lia.
Qed.

Lemma midpoint_lookup (a : list F64.t) (i : nat) (x y : F64.t) :
  a !! i = Some x -> a !! S i = Some y ->
  midpoints a !! i = Some ((x + y) / F64.two)%F.
Proof.
  intros Hx Hy. unfold midpoints, np.divide_scalar.
  rewrite list_lookup_fmap, lookup_zip_with, lookup_drop, lookup_take_lt.
  - simpl. rewrite Hy, Hx. simpl. now rewrite (F64_add_comm y x).
  - apply lookup_lt_Some in Hy. lia.
Qed.

Section Geomspace.
Context `{Libm}.

Lemma logspace_ok (start stop : F64.t) (num : Z) :
  0 <= num ->
  exists y, np.linspace start stop num = Ok y
            /\ np.logspace start stop num = Ok (map (power (F64.of_Z 10)) y)
            /\ length y = Z.to_nat num.
Proof.
  intros Hn. destruct (linspace_ok start stop num Hn) as (y & Hy & Hlen & _).
  exists y. unfold np.logspace. rewrite Hy. auto.
Qed.

Lemma geomspace_raises (start stop : F64.t) (num : Z) :
  (start == F64.zero)%F || (stop == F64.zero)%F = true ->
  np.geomspace start stop num
  = Raise (ValueError "Geometric sequence cannot include zero").
Proof. intros Hz. unfold np.geomspace. now rewrite Hz. Qed.

Lemma geomspace_ok (start stop : F64.t) (num : Z) :
  (start == F64.zero)%F || (stop == F64.zero)%F = false ->
  0 <= num ->
  let s := F64.sign start in
  exists y a,
    np.linspace (log10 (start / s)%F) (log10 (stop / s)%F) num = Ok y
    /\ np.geomspace start stop num = Ok a
    /\ length a = Z.to_nat num
    /\ (0 < num -> a !! 0%nat = Some (start / s * s)%F)
    /\ (1 < num -> a !! Nat.pred (Z.to_nat num) = Some (stop / s * s)%F)
    /\ (forall i, (0 < i < Nat.pred (Z.to_nat num))%nat ->
          a !! i = (fun e => (power (F64.of_Z 10) e * s)%F) <$> y !! i).
Proof.
  intros Hz Hn s. unfold np.geomspace. rewrite Hz. fold s.
  destruct (logspace_ok (log10 (start / s)%F) (log10 (stop / s)%F) num Hn)
    as (y & Hy & Hl & Hlen).
  exists y. rewrite Hl. cbn [rbind].
  set (r := map (power (F64.of_Z 10)) y).
  assert (Hr : length r = Z.to_nat num) by (subst r; now rewrite length_map).
  destruct (Z.ltb_spec 0 num) as [H0|H0].
  - assert (Hne : r <> []) by (intros E; rewrite E in Hr; simpl in Hr; lia).
    rewrite (setitem_first r _ Hne). cbn [rbind].
    destruct (Z.ltb_spec 1 num) as [H1|H1].
    + rewrite setitem_last
        by (intros E; apply (f_equal length) in E;
            rewrite length_insert in E; simpl in E; lia).
      cbn [rbind]. rewrite length_insert, Hr.
      eexists; split; [exact Hy |]. split; [reflexivity |].
      rewrite length_map, !length_insert.
      split; [exact Hr |]. split; [| split].
      * intros _. rewrite list_lookup_fmap, list_lookup_insert_ne by lia.
        rewrite list_lookup_insert_eq by lia. reflexivity.
      * intros _. rewrite list_lookup_fmap, list_lookup_insert_eq; [reflexivity |].
        rewrite length_insert. lia.
      * intros i Hi.
        rewrite list_lookup_fmap, !list_lookup_insert_ne by lia.
        subst r. rewrite list_lookup_fmap. now destruct (y !! i).
    + cbn [rbind]. eexists; split; [exact Hy |]. split; [reflexivity |].
      rewrite length_map, length_insert.
      split; [exact Hr |]. split; [| split].
      * intros _. rewrite list_lookup_fmap, list_lookup_insert_eq by lia.
        reflexivity.
      * lia.
      * intros i Hi. lia.
  - cbn [rbind]. eexists; split; [exact Hy |]. split; [reflexivity |].
    rewrite length_map. split; [exact Hr |].
    split; [lia |]. split; [lia |]. intros i Hi. lia.
Qed.

End Geomspace.

(** ** The module body *)

Section BodyFacts.
Context `{Libm}.

(** What running the body in a namespace [ns] comes to: the three numpy
    calls that can raise, then the bindings. *)
Lemma body_eq (cfg : config) (ns : gmap string value) :
  body cfg ns
  = (let? edges :=
       np.linspace (F64.of_Z 0) (F64.dec 3 1) (cfg_nkbins cfg + 1) in
     let? ks := np.geomspace (fst (cfg_ks cfg)) (snd (cfg_ks cfg)) 1000 in
     let? ms := np.geomspace (fst (cfg_ms cfg)) (snd (cfg_ms cfg)) 40 in
     Ok (bind_all (bindings cfg edges (midpoints edges) ks ms) ns)).
Proof.
  unfold body, seq_stmt, assign, assign_expr. cbn [rbind].
  unfold kbin_edges_expr at 1. unfold name at 1.
  rewrite lookup_insert_eq. cbn [rbind as_int].
  destruct (np.linspace _ _ _) as [edges|e]; cbn [rbind]; [| reflexivity].
  unfold kbin_centers_expr at 1. unfold name.
  rewrite lookup_insert_eq. cbn [rbind as_array].
  rewrite add_slices. cbn [rbind]. fold (midpoints edges).
  unfold geomspace_expr.
  destruct (np.geomspace _ _ 1000) as [ks|e]; cbn [rbind]; [| reflexivity].
  destruct (np.geomspace _ _ 40) as [ms|e]; cbn [rbind]; reflexivity.
Qed.

End BodyFacts.

Lemma bind_all_lookup (bs : list (string * value)) (ns : gmap string value)
    (x : string) :
  bind_all bs ns !! x = lookup_bindings x bs (ns !! x).
Proof.
  unfold bind_all. revert ns. induction bs as [|b bs IH]; intros ns.
  - reflexivity.
  - cbn [foldl lookup_bindings]. rewrite IH. f_equal. apply lookup_insert.
Qed.

Lemma check_pairs_sound (P : nat -> F64.t -> F64.t -> bool)
    (l : list F64.t) (n i : nat) :
  check_pairs P l n = true -> (i < n)%nat ->
  exists a b, l !! i = Some a /\ l !! S i = Some b /\ P i a b = true.
Proof.
  unfold check_pairs. rewrite forallb_forall. intros Hall Hi.
  specialize (Hall i). rewrite in_seq in Hall.
  specialize (Hall ltac:(lia)).
  destruct (l !! i) as [a|]; [| discriminate].
  destruct (l !! S i) as [b|]; [| discriminate].
  exists a, b. auto.
Qed.

Section LoadFacts.
Context `{Libm}.

(** A load raises nothing when the bin count is at least -1 and no
    geometric bound is zero. *)
Lemma body_ok (cfg : config) (ns : gmap string value) :
  -1 <= cfg_nkbins cfg ->
  (fst (cfg_ks cfg) == F64.zero)%F || (snd (cfg_ks cfg) == F64.zero)%F
    = false ->
  (fst (cfg_ms cfg) == F64.zero)%F || (snd (cfg_ms cfg) == F64.zero)%F
    = false ->
  exists edges ks ms,
    np.linspace (F64.of_Z 0) (F64.dec 3 1) (cfg_nkbins cfg + 1) = Ok edges
    /\ np.geomspace (fst (cfg_ks cfg)) (snd (cfg_ks cfg)) 1000 = Ok ks
    /\ np.geomspace (fst (cfg_ms cfg)) (snd (cfg_ms cfg)) 40 = Ok ms
    /\ body cfg ns
       = Ok (bind_all (bindings cfg edges (midpoints edges) ks ms) ns).
Proof.
  intros Hn Hks Hms.
  destruct (linspace_ok (F64.of_Z 0) (F64.dec 3 1) (cfg_nkbins cfg + 1))
    as (edges & He & _); [lia |].
  destruct (geomspace_ok _ _ 1000 Hks) as (_ & ks & _ & Hk & _); [lia |].
  destruct (geomspace_ok _ _ 40 Hms) as (_ & ms & _ & Hm & _); [lia |].
  exists edges, ks, ms. rewrite body_eq, He, Hk, Hm. auto.
Qed.

Lemma getattr_bound (cfg : config) (edges centers ks ms : list F64.t)
    (ns : gmap string value) (x : string) (v : value) :
  lookup_bindings x (bindings cfg edges centers ks ms) (ns !! x) = Some v ->
  getattr (Ok (bind_all (bindings cfg edges centers ks ms) ns)) x = Ok v.
Proof.
  intros Hx. unfold getattr. cbn [rbind].
  now rewrite bind_all_lookup, Hx.
Qed.

End LoadFacts.

Lemma length_midpoints (a : list F64.t) :
  length (midpoints a) = (length a - 1)%nat.
Proof.
  unfold midpoints, np.divide_scalar.
  rewrite length_map, length_zip_with, length_drop, length_take. lia.
Qed.

Lemma source_bounds_nonzero :
  (fst (cfg_ks source_config) == F64.zero)%F
    || (snd (cfg_ks source_config) == F64.zero)%F = false
  /\ (fst (cfg_ms source_config) == F64.zero)%F
    || (snd (cfg_ms source_config) == F64.zero)%F = false.
Proof. split; reflexivity. Qed.

(** ** The spectral bins *)

Section Bins.
Context `{Libm}.

(** With any bin count [n >= -1] and the source's grids, the load
    succeeds with [n+1] edges and [max n 0] centers. *)
Lemma load_with_nkbins (n : Z) :
  -1 <= n ->
  exists edges ks ms,
    np.linspace (F64.of_Z 0) (F64.dec 3 1) (n + 1) = Ok edges
    /\ length edges = Z.to_nat (n + 1)
    /\ load (with_nkbins n)
       = Ok (bind_all
               (bindings (with_nkbins n) edges (midpoints edges) ks ms) ∅).
Proof.
  intros Hn. destruct source_bounds_nonzero as [Hks Hms].
  destruct (body_ok (with_nkbins n) ∅ Hn Hks Hms)
    as (edges & ks & ms & He & _ & _ & Hb).
  exists edges, ks, ms. split; [exact He |]. split; [| exact Hb].
  destruct (linspace_ok (F64.of_Z 0) (F64.dec 3 1) (n + 1))
    as (a & Ha & Hlen & _); [lia |].
  cbn [with_nkbins cfg_nkbins] in He. congruence.
Qed.

(** C2: for the source's configuration the loaded module binds [nkbins]
    to 100 and holds exactly 101 bin edges and exactly 100 bin centers. *)
Theorem kbin_lengths_default :
  exists edges centers,
    getattr (load source_config) "nkbins" = Ok (VInt 100)
    /\ getattr (load source_config) "kbin_edges" = Ok (VArray edges)
    /\ getattr (load source_config) "kbin_centers" = Ok (VArray centers)
    /\ length edges = 101%nat
    /\ length centers = 100%nat.
Proof.
  destruct (load_with_nkbins 100) as (edges & ks & ms & _ & Hlen & Hl);
    [lia |].
  change (with_nkbins 100) with source_config in Hl.
  exists edges, (midpoints edges). rewrite Hl.
  split; [now apply getattr_bound |].
  split; [now apply getattr_bound |].
  split; [now apply getattr_bound |].
  split; [exact Hlen |]. rewrite length_midpoints, Hlen. reflexivity.
Qed.

(** C1: for every bin count [n] and every index [0 <= i < n], the loaded
    module's arrays satisfy
    [kbin_centers[i] = (kbin_edges[i] + kbin_edges[i+1]) / 2] as binary64
    values, bit for bit (the source's [nkbins = 100] is [n = 100]). *)
Theorem kbin_centers_midpoint (n i : Z) :
  0 <= i < n ->
  exists edges centers a b,
    getattr (load (with_nkbins n)) "kbin_edges" = Ok (VArray edges)
    /\ getattr (load (with_nkbins n)) "kbin_centers" = Ok (VArray centers)
    /\ edges !! Z.to_nat i = Some a
    /\ edges !! Z.to_nat (i + 1) = Some b
    /\ centers !! Z.to_nat i = Some ((a + b) / F64.of_Z 2)%F.
Proof.
  intros Hi.
  destruct (load_with_nkbins n) as (edges & ks & ms & _ & Hlen & Hl);
    [lia |].
  destruct (lookup_lt_is_Some_2 edges (Z.to_nat i)) as [a Ha]; [lia |].
  destruct (lookup_lt_is_Some_2 edges (S (Z.to_nat i))) as [b Hb]; [lia |].
  exists edges, (midpoints edges), a, b. rewrite Hl.
  split; [now apply getattr_bound |].
  split; [now apply getattr_bound |].
  split; [exact Ha |].
  replace (Z.to_nat (i + 1)) with (S (Z.to_nat i)) by lia.
  split; [exact Hb |]. now apply midpoint_lookup.
Qed.

End Bins.

Section Edges.
Context `{Libm}.

(** C3: the source's bin edges start at [0.0], end at the binary64 value
    of [0.3] and are strictly increasing.  They are uniformly spaced as far
    as binary64 allows: every edge but the last is [i * step + 0.0] for the
    one step [(0.3 - 0.0) / 100], the exact difference of consecutive
    edges is within [2^-54] of [0.3 / 100], and edge [i] is within [2^-54]
    of [i * 0.3 / 100]. *)
Theorem kbin_edges_span :
  exists edges,
    getattr (load source_config) "kbin_edges" = Ok (VArray edges)
    /\ edges !! 0%nat = Some (F64.of_Z 0)
    /\ edges !! 100%nat = Some (F64.dec 3 1)
    /\ forall i : nat, (i < 100)%nat ->
         exists a b,
           edges !! i = Some a /\ edges !! S i = Some b
           /\ (a < b)%F = true
           /\ a = (F64.of_Z (Z.of_nat i)
                   * ((F64.dec 3 1 - F64.of_Z 0) / F64.of_Z 100)
                   + F64.of_Z 0)%F
           /\ F64.gap_within a b (3 # 1000) (1 # 2 ^ 54) = true
           /\ F64.within a (3 * Z.of_nat i # 1000) (1 # 2 ^ 54) = true.
Proof.
  destruct (load_with_nkbins 100) as (edges & ks & ms & He & _ & Hl);
    [lia |].
  change (with_nkbins 100) with source_config in Hl.
  pose proof (fun i => linspace_interior _ _ _ _ i He eq_refl) as Hstep.
  vm_compute in He. injection He as <-.
  eexists. rewrite Hl. split; [now apply getattr_bound |].
  split; [reflexivity |]. split; [reflexivity |].
  intros i Hi.
  pose (P := fun (i : nat) (a b : F64.t) =>
               (a < b)%F
               && F64.gap_within a b (3 # 1000) (1 # 2 ^ 54)
               && F64.within a (3 * Z.of_nat i # 1000) (1 # 2 ^ 54)).
  match goal with |- context [?l !! i] =>
    destruct (check_pairs_sound P l 100 i) as (a & b & Ha & Hb & HP)
  end; [vm_compute; reflexivity | exact Hi |].
  exists a, b. subst P. cbv beta in HP.
  apply andb_prop in HP as [HP H3]. apply andb_prop in HP as [H1 H2].
  specialize (Hstep i ltac:(change (Z.to_nat (100 + 1)) with 101%nat; lia)).
  rewrite Ha in Hstep. injection Hstep as Hstep.
  repeat split; assumption.
Qed.

End Edges.

(** ** The frequency-to-noise dict *)

(** C4 as stated fails: a key other than 90 and 150 does not make the
    lookup raise an error of class [UnknownParameter]. *)
Lemma act_rms_threshold_not_UnknownParameter :
  ~ (forall k : Z, k <> 90 -> k <> 150 ->
       exists e, getitem_dict act_rms_threshold k = Raise e
                 /\ exn_class e = "UnknownParameter"%string).
Proof.
  intros Hc. destruct (Hc 100) as (e & He & Hcls); [lia | lia |].
  vm_compute in He. injection He as <-. discriminate Hcls.
Qed.

(** C4, amended: the module binds [act_rms_threshold] to a dict whose
    lookup gives 70.0 at key 90 and at key 150 and raises [KeyError] at
    every other key. *)
Theorem act_rms_threshold_lookup `{Libm} :
  getattr (load source_config) "act_rms_threshold"
  = Ok (VDict act_rms_threshold)
  /\ getitem_dict act_rms_threshold 90 = Ok (F64.of_Z 70)
  /\ getitem_dict act_rms_threshold 150 = Ok (F64.of_Z 70)
  /\ forall k : Z, k <> 90 -> k <> 150 ->
       getitem_dict act_rms_threshold k = Raise (KeyError k).
Proof.
  split.
  { destruct (load_with_nkbins 100) as (edges & ks & ms & _ & _ & Hl);
      [lia |].
    change (with_nkbins 100) with source_config in Hl.
    rewrite Hl. now apply getattr_bound. }
  split; [reflexivity |]. split; [reflexivity |].
  intros k H90 H150. unfold getitem_dict, act_rms_threshold.
  rewrite !lookup_insert_ne by congruence. now rewrite lookup_empty.
Qed.

(** ** Loading and malformed configurations *)





Section Outcome.
Context `{Libm}.
Variable cfg : config.


End Outcome.

(** ** Four bins *)

(** C7 as stated fails: with bin count 4 the arrays are not, element for
    element, the binary64 values of the decimals the scenario lists. *)
Lemma kbin_arrays_4_not_the_decimals :
  ~ (forall L : Libm,
       getattr (@load L (with_nkbins 4)) "kbin_edges"
       = Ok (VArray [F64.of_Z 0; F64.dec 75 3; F64.dec 15 2; F64.dec 225 3;
                     F64.dec 3 1])
       /\ getattr (@load L (with_nkbins 4)) "kbin_centers"
          = Ok (VArray [F64.dec 375 4; F64.dec 1125 4; F64.dec 1875 4;
                        F64.dec 2625 4])).
Proof.
  intros Hc. destruct (Hc libm_any) as [He _].
  destruct (@load_with_nkbins libm_any 4) as (edges & ks & ms & Hlin & _ & Hl);
    [lia |].
  rewrite Hl in He.
  erewrite getattr_bound in He by reflexivity.
  injection He as ->. vm_compute in Hlin. discriminate Hlin.
Qed.

(** C7, amended: with bin count 4 the edges are
    [0, 0.075, 0.15, 3 * 0.075, 0.3] and the centers
    [0.0375, (0.075 + 0.15) / 2, 0.1875, (3 * 0.075 + 0.3) / 2] in binary64
    arithmetic.  Every element is within [2^-54] of the decimal the
    scenario lists, and [3 * 0.075] is strictly below the binary64 value of
    [0.225]. *)
Theorem kbin_arrays_4 `{Libm} :
  exists edges centers,
    getattr (load (with_nkbins 4)) "kbin_edges" = Ok (VArray edges)
    /\ getattr (load (with_nkbins 4)) "kbin_centers" = Ok (VArray centers)
    /\ edges = [F64.of_Z 0; F64.dec 75 3; F64.dec 15 2;
                (F64.of_Z 3 * F64.dec 75 3)%F; F64.dec 3 1]
    /\ centers = [F64.dec 375 4;
                  ((F64.dec 75 3 + F64.dec 15 2) / F64.of_Z 2)%F;
                  F64.dec 1875 4;
                  ((F64.of_Z 3 * F64.dec 75 3 + F64.dec 3 1) / F64.of_Z 2)%F]
    /\ Forall2 (fun x q => F64.within x q (1 # 2 ^ 54) = true) edges
         [0 # 1; 75 # 1000; 15 # 100; 225 # 1000; 3 # 10]%Q
    /\ Forall2 (fun x q => F64.within x q (1 # 2 ^ 54) = true) centers
         [375 # 10000; 1125 # 10000; 1875 # 10000; 2625 # 10000]%Q
    /\ (F64.of_Z 3 * F64.dec 75 3 < F64.dec 225 3)%F = true.
Proof.
  destruct (load_with_nkbins 4) as (edges & ks & ms & He & _ & Hl); [lia |].
  vm_compute in He. injection He as <-.
  eexists. eexists. rewrite Hl.
  split; [now apply getattr_bound |].
  split; [now apply getattr_bound |].
  split; [vm_compute; reflexivity |].
  split; [vm_compute; reflexivity |].
  split; [repeat constructor |].
  split; [repeat constructor |].
  reflexivity.
Qed.

(** ** Scalars *)

(** C10: the halo-model redshift bounds are bound to the same values as the
    SDSS catalog's redshift range, the binary64 values of 0.43 and 0.7. *)
Theorem hmodel_z_bounds_are_sdss `{Libm} :
  getattr (load source_config) "hmodel_minz" = Ok (VFloat (F64.dec 43 2))
  /\ getattr (load source_config) "sdss_zmin" = Ok (VFloat (F64.dec 43 2))
  /\ getattr (load source_config) "hmodel_maxz" = Ok (VFloat (F64.dec 7 1))
  /\ getattr (load source_config) "sdss_zmax" = Ok (VFloat (F64.dec 7 1)).
Proof.
  destruct (load_with_nkbins 100) as (edges & ks & ms & _ & _ & Hl); [lia |].
  change (with_nkbins 100) with source_config in Hl. rewrite Hl.
  repeat split; now apply getattr_bound.
Qed.

(** ** The halo-model grids *)

Section Grids.
Context `{Libm}.



End Grids.

(** ** Loading twice *)

Section Reload.
Context `{Libm}.

(** C8: two runs of the module body, each in an arbitrary prior
    namespace, both succeed and leave every name of the module bound to
    the same value: the same binary64 arrays element for element, and the
    same scalars, strings and dict. *)
Theorem load_deterministic (ns1 ns2 : gmap string value) :
  exists m1 m2,
    body source_config ns1 = Ok m1
    /\ body source_config ns2 = Ok m2
    /\ Forall (fun x => exists v, m1 !! x = Some v /\ m2 !! x = Some v)
         module_names.
Proof.
  destruct source_bounds_nonzero as [Hzk Hzm].
  destruct (body_ok source_config ns1 ltac:(simpl; lia) Hzk Hzm)
    as (edges & ks & ms & He & Hk & Hm & Hb1).
  destruct (body_ok source_config ns2 ltac:(simpl; lia) Hzk Hzm)
    as (edges' & ks' & ms' & He' & Hk' & Hm' & Hb2).
  rewrite He in He'. rewrite Hk in Hk'. rewrite Hm in Hm'.
  injection He' as <-. injection Hk' as <-. injection Hm' as <-.
  eexists. eexists. split; [exact Hb1 |]. split; [exact Hb2 |].
  generalize (midpoints edges) as centers. intros centers.
  unfold module_names.
  repeat (apply Forall_cons; split;
          [eexists; rewrite !bind_all_lookup; split; reflexivity |]).
  apply Forall_nil_2.
Qed.

End Reload.

(** ** Instances *)

Example with_nkbins_source : with_nkbins 100 = source_config.
Proof. reflexivity. Qed.

Example dec_0_3 : F64.dec 3 1 = S754_finite false 5404319552844595 (-54).
Proof. reflexivity. Qed.

Example dec_1em5 : F64.dec 1 5 = S754_finite false 5902958103587057 (-69).
Proof. reflexivity. Qed.

Example three_steps_of_0_075 :
  (F64.of_Z 3 * F64.dec 75 3)%F = S754_finite false 8106479329266892 (-55)
  /\ F64.dec 225 3 = S754_finite false 8106479329266893 (-55).
Proof. split; reflexivity. Qed.

Example linspace_one_sample :
  np.linspace (F64.of_Z 0) (F64.dec 3 1) 1 = Ok [F64.of_Z 0].
Proof. reflexivity. Qed.

Example linspace_no_sample : np.linspace (F64.of_Z 0) (F64.dec 3 1) 0 = Ok [].
Proof. reflexivity. Qed.


(** C1 at the last bin of the source's configuration. *)
Lemma kbin_centers_midpoint_witness :
  0 <= 99 < 100
  /\ exists edges centers a b,
       getattr (@load libm_any (with_nkbins 100)) "kbin_edges"
       = Ok (VArray edges)
       /\ getattr (@load libm_any (with_nkbins 100)) "kbin_centers"
          = Ok (VArray centers)
       /\ edges !! Z.to_nat 99 = Some a
       /\ edges !! Z.to_nat (99 + 1) = Some b
       /\ centers !! Z.to_nat 99 = Some ((a + b) / F64.of_Z 2)%F.
Proof.
  split; [lia | apply (@kbin_centers_midpoint libm_any 100 99); lia].
Defined.

(** C3 at the pair of edges 7 and 8. *)
Lemma kbin_edges_span_witness :
  (7 < 100)%nat
  /\ exists edges a b,
       getattr (@load libm_any source_config) "kbin_edges" = Ok (VArray edges)
       /\ edges !! 7%nat = Some a /\ edges !! 8%nat = Some b
       /\ (a < b)%F = true
       /\ F64.gap_within a b (3 # 1000) (1 # 2 ^ 54) = true.
Proof.
  split; [lia |].
  destruct (@kbin_edges_span libm_any) as (edges & Hg & _ & _ & Hall).
  destruct (Hall 7%nat ltac:(lia)) as (a & b & Ha & Hb & Hlt & _ & Hgap & _).
  exists edges, a, b. auto.
Defined.

(** C4 at key 100. *)
Lemma act_rms_threshold_lookup_witness :
  100 <> 90 /\ 100 <> 150
  /\ getitem_dict act_rms_threshold 100 = Raise (KeyError 100).
Proof.
  split; [lia |]. split; [lia |].
  apply (proj2 (proj2 (proj2 (@act_rms_threshold_lookup libm_any)))); lia.
Defined.




(** * Further properties of the module *)

(** ** What a successful load leaves *)

Lemma Ok_inj {A : Type} (a b : A) : Ok a = Ok b -> a = b.
Proof. intros E. now injection E. Qed.

Lemma linspace_length (start stop : F64.t) (num : Z) (a : list F64.t) :
  np.linspace start stop num = Ok a -> 0 <= num /\ length a = Z.to_nat num.
Proof.
  intros Ha. destruct (Z.lt_ge_cases num 0) as [Hn|Hn].
  - rewrite linspace_raises in Ha by exact Hn. discriminate Ha.
  - destruct (linspace_ok start stop num Hn) as (a' & Ha' & Hlen & _).
    split; [exact Hn | congruence].
Qed.

Lemma geomspace_length `{Libm} (start stop : F64.t) (num : Z)
    (a : list F64.t) :
  0 <= num -> np.geomspace start stop num = Ok a ->
  has_zero_bound (start, stop) = false /\ length a = Z.to_nat num.
Proof.
  intros Hn Ha. destruct (has_zero_bound (start, stop)) eqn:Hz.
  - rewrite geomspace_raises in Ha by exact Hz. discriminate Ha.
  - destruct (geomspace_ok start stop num Hz Hn) as (y & a' & _ & Ha' & Hlen & _).
    split; [reflexivity | congruence].
Qed.

(** A run of the body that does not raise made its three numpy calls
    without raising and bound their results. *)
Lemma body_inv `{Libm} (cfg : config) (ns m : gmap string value) :
  body cfg ns = Ok m ->
  exists edges ks ms,
    np.linspace (F64.of_Z 0) (F64.dec 3 1) (cfg_nkbins cfg + 1) = Ok edges
    /\ np.geomspace (fst (cfg_ks cfg)) (snd (cfg_ks cfg)) 1000 = Ok ks
    /\ np.geomspace (fst (cfg_ms cfg)) (snd (cfg_ms cfg)) 40 = Ok ms
    /\ m = bind_all (bindings cfg edges (midpoints edges) ks ms) ns.
Proof.
  rewrite body_eq. intros Hb.
  destruct (np.linspace _ _ _) as [edges|e]; [| discriminate Hb].
  destruct (np.geomspace _ _ 1000) as [ks|e]; [| discriminate Hb].
  destruct (np.geomspace _ _ 40) as [ms|e]; [| discriminate Hb].
  cbn [rbind] in Hb. apply Ok_inj in Hb. subst m.
  exists edges, ks, ms. auto.
Qed.

Lemma bindings_names (cfg : config) (edges centers ks ms : list F64.t) :
  map fst (bindings cfg edges centers ks ms) = module_names.
Proof. reflexivity. Qed.

Lemma lookup_bindings_other (x : string) (bs : list (string * value))
    (d : option value) :
  ~ In x (map fst bs) -> lookup_bindings x bs d = d.
Proof.
  revert d. induction bs as [|b bs IH]; intros d Hx; [reflexivity |].
  cbn [lookup_bindings]. cbn [map In] in Hx.
  rewrite IH by tauto.
  destruct (decide (fst b = x)); [tauto | reflexivity].
Qed.

Lemma lookup_bindings_bound (x : string) (bs : list (string * value)) :
  In x (map fst bs) -> exists v, forall d, lookup_bindings x bs d = Some v.
Proof.
  induction bs as [|b bs IH]; intros Hx; [destruct Hx |].
  cbn [lookup_bindings].
  destruct (in_dec string_dec x (map fst bs)) as [Hin|Hout].
  - destruct (IH Hin) as [v Hv]. exists v. intros d. apply Hv.
  - cbn [map In] in Hx. destruct Hx as [Hx|Hx]; [| tauto].
    exists (snd b). intros d. rewrite lookup_bindings_other by exact Hout.
    destruct (decide (fst b = x)); [reflexivity | tauto].
Qed.

(** X1: whenever a load succeeds, whatever the configuration and the libm,
    its four arrays have the shapes the literals fix: [nkbins + 1] edges,
    [nkbins] centers (none when [nkbins] is below 1), 1000 wavenumbers and
    40 masses. *)
Theorem load_shapes `{Libm} (cfg : config) (m : gmap string value) :
  load cfg = Ok m ->
  exists edges centers ks ms,
    m !! "kbin_edges"%string = Some (VArray edges)
    /\ m !! "kbin_centers"%string = Some (VArray centers)
    /\ m !! "hmodel_ks"%string = Some (VArray ks)
    /\ m !! "hmodel_ms"%string = Some (VArray ms)
    /\ length edges = Z.to_nat (cfg_nkbins cfg + 1)
    /\ length centers = Z.to_nat (cfg_nkbins cfg)
    /\ length ks = 1000%nat
    /\ length ms = 40%nat.
Proof.
  intros Hl. destruct (body_inv cfg ∅ m Hl) as (edges & ks & ms & He & Hk & Hm & ->).
  apply linspace_length in He as [Hn He].
  apply geomspace_length in Hk as [_ Hk]; [| lia].
  apply geomspace_length in Hm as [_ Hm]; [| lia].
  exists edges, (midpoints edges), ks, ms.
  rewrite !bind_all_lookup.
  repeat (split; [reflexivity |]).
  split; [exact He |]. split; [rewrite length_midpoints, He; lia |].
  split; [exact Hk | exact Hm].
Qed.

(** X2: whenever a load with at least one bin succeeds, the last bin edge
    is exactly the binary64 value of the literal [0.3], whatever the bin
    count: [linspace] overwrites the last sample with [stop]. *)
Theorem kbin_edges_last `{Libm} (cfg : config) (m : gmap string value) :
  load cfg = Ok m -> 1 <= cfg_nkbins cfg ->
  exists edges,
    m !! "kbin_edges"%string = Some (VArray edges)
    /\ length edges = S (Z.to_nat (cfg_nkbins cfg))
    /\ edges !! Z.to_nat (cfg_nkbins cfg) = Some (F64.dec 3 1)
    /\ last edges = Some (F64.dec 3 1).
Proof.
  intros Hl Hn.
  destruct (body_inv cfg ∅ m Hl) as (edges & ks & ms & He & _ & _ & ->).
  destruct (linspace_ok (F64.of_Z 0) (F64.dec 3 1) (cfg_nkbins cfg + 1))
    as (a & Ha & Hlen & Hlast); [lia |].
  rewrite Ha in He. injection He as <-.
  specialize (Hlast ltac:(lia)).
  replace (Nat.pred (Z.to_nat (cfg_nkbins cfg + 1)))
    with (Z.to_nat (cfg_nkbins cfg)) in Hlast by lia.
  exists a. rewrite bind_all_lookup.
  split; [reflexivity |]. split; [lia |]. split; [exact Hlast |].
  rewrite last_lookup. rewrite Hlen.
  replace (Nat.pred (Z.to_nat (cfg_nkbins cfg + 1)))
    with (Z.to_nat (cfg_nkbins cfg)) by lia.
  exact Hlast.
Qed.

(** ** The namespace around a load *)

(** X3: a run of the module body that succeeds leaves every name the
    module does not assign exactly as it was in the prior namespace: a
    reload deletes nothing and touches no foreign name. *)
Theorem body_frame `{Libm} (cfg : config) (ns m : gmap string value)
    (x : string) :
  body cfg ns = Ok m -> ~ In x module_names -> m !! x = ns !! x.
Proof.
  intros Hb Hx.
  destruct (body_inv cfg ns m Hb) as (edges & ks & ms & _ & _ & _ & ->).
  rewrite bind_all_lookup. apply lookup_bindings_other.
  now rewrite bindings_names.
Qed.


Lemma lookup_bindings_twice (x : string) (bs : list (string * value))
    (d : option value) :
  lookup_bindings x bs (lookup_bindings x bs d) = lookup_bindings x bs d.
Proof.
  destruct (in_dec string_dec x (map fst bs)) as [Hin|Hout].
  - destruct (lookup_bindings_bound x bs Hin) as [v Hv]. now rewrite !Hv.
  - now rewrite !lookup_bindings_other.
Qed.

(** X5: reloading is idempotent: running the module body again in the
    namespace a successful run left succeeds and leaves that namespace
    unchanged. *)
Theorem body_idempotent `{Libm} (cfg : config) (ns m : gmap string value) :
  body cfg ns = Ok m -> body cfg m = Ok m.
Proof.
  intros Hb.
  destruct (body_inv cfg ns m Hb) as (edges & ks & ms & He & Hk & Hm & ->).
  rewrite body_eq, He, Hk, Hm. cbn [rbind]. f_equal.
  apply map_eq. intros x.
  rewrite !bind_all_lookup. apply lookup_bindings_twice.
Qed.

(** ** Bins for other bin counts *)

Lemma bins_ok_range (n : nat) :
  (n <= 200)%nat -> bins_ok n = true.
Proof.
  intros Hn.
  assert (Hall : forallb bins_ok (seq 0 201) = true) by (vm_compute; reflexivity).
  rewrite forallb_forall in Hall. apply Hall. apply in_seq. lia.
Qed.

(** X6: for every bin count from 0 to 200 the load succeeds, the first
    edge is [+0.0], and in each bin the lower edge is strictly below the
    upper edge with the bin's center strictly between the two. *)
Theorem kbin_centers_inside `{Libm} (n : Z) :
  0 <= n <= 200 ->
  exists edges centers,
    getattr (load (with_nkbins n)) "kbin_edges" = Ok (VArray edges)
    /\ getattr (load (with_nkbins n)) "kbin_centers" = Ok (VArray centers)
    /\ edges !! 0%nat = Some (F64.of_Z 0)
    /\ forall i : nat, (i < Z.to_nat n)%nat ->
         exists a b c,
           edges !! i = Some a /\ edges !! S i = Some b
           /\ centers !! i = Some c
           /\ (a < b)%F = true /\ (a < c)%F = true /\ (c < b)%F = true.
Proof.
  intros Hn.
  destruct (load_with_nkbins n) as (edges & ks & ms & He & _ & Hl); [lia |].
  pose proof (bins_ok_range (Z.to_nat n) ltac:(lia)) as Hok.
  unfold bins_ok in Hok. rewrite Z2Nat.id in Hok by lia. rewrite He in Hok.
  apply andb_prop in Hok as [H0 Hpairs].
  exists edges, (midpoints edges). rewrite Hl.
  split; [now apply getattr_bound |].
  split; [now apply getattr_bound |].
  split.
  { destruct (edges !! 0%nat) as [[[|]| | |]|]; try discriminate H0.
    reflexivity. }
  intros i Hi.
  destruct (check_pairs_sound _ _ _ i Hpairs Hi) as (a & b & Ha & Hb & HP).
  cbv zeta in HP.
  apply andb_prop in HP as [HP H3]. apply andb_prop in HP as [H1 H2].
  exists a, b, ((a + b) / F64.two)%F.
  split; [exact Ha |]. split; [exact Hb |].
  split; [now apply midpoint_lookup |]. auto.
Qed.

(** ** Exact operations on binary64 numbers *)

Lemma one_repr : F64.one = S754_finite false 4503599627370496 (-52).
Proof. reflexivity. Qed.

Lemma minus_one_repr :
  F64.of_Z (-1) = S754_finite true 4503599627370496 (-52).
Proof. reflexivity. Qed.

Lemma shr_52 (p : positive) :
  SpecFloat.iter_pos shr_1 52
    {| shr_m := Z.pos (p * 4503599627370496); shr_r := false; shr_s := false |}
  = {| shr_m := Z.pos p; shr_r := false; shr_s := false |}.
Proof. rewrite Pos.mul_comm. reflexivity. Qed.

Lemma digits_52 (p : positive) :
  Z.pos (digits2_pos (p * 4503599627370496)) = Z.pos (digits2_pos p) + 52.
Proof.
  rewrite Pos.mul_comm.
  change (digits2_pos (4503599627370496 * p))
    with (Pos.succ (Pos.succ (Pos.iter Pos.succ (digits2_pos p) 50))).
  rewrite !Pos2Z.inj_succ.
  assert (E : forall (n d : positive),
             Z.pos (Pos.iter Pos.succ d n) = Z.pos d + Z.pos n).
  { intros n d. induction n using Pos.peano_ind.
    - simpl. lia.
    - rewrite Pos.iter_succ, Pos2Z.inj_succ, IHn. lia. }
  rewrite E. lia.
Qed.

Lemma round_final (s : bool) (m : positive) (e : Z) :
  bounded F64.prec F64.emax m e = true ->
  (let '(mrs, e') := shr_fexp F64.prec F64.emax (Z.pos m) e loc_Exact in
   match shr_m mrs with
   | 0 => S754_zero s
   | Z.pos m' =>
       if e' <=? F64.emax - F64.prec then S754_finite s m' e'
       else S754_infinity s
   | Z.neg _ => S754_nan
   end) = S754_finite s m e.
Proof.
  unfold bounded, canonical_mantissa. intros [Hc Hb]%andb_prop.
  apply Z.eqb_eq in Hc.
  unfold shr_fexp. cbn [Zdigits2 shr_record_of_loc].
  rewrite Hc, Z.sub_diag. cbn [shr shr_m]. now rewrite Hb.
Qed.

(** Multiplying by [1.0] or [-1.0] is exact: it keeps or flips the sign. *)
Lemma mul_unit (x : F64.t) (sy : bool) :
  valid_binary F64.prec F64.emax x = true ->
  (x * S754_finite sy 4503599627370496 (-52))%F
  = if sy then SFopp x else x.
Proof.
  destruct x as [s|s| |s m e]; intros Hv.
  - now destruct s, sy.
  - now destruct s, sy.
  - now destruct sy.
  - cbn [valid_binary] in Hv. pose proof Hv as Hv'.
    unfold bounded, canonical_mantissa in Hv'. apply andb_prop in Hv' as [Hc Hb].
    apply Z.eqb_eq in Hc.
    transitivity (S754_finite (xorb s sy) m e);
      [| now destruct s, sy].
    unfold F64.mul, SFmul.
    unfold binary_round_aux at 1. unfold shr_fexp at 1.
    cbn [Zdigits2 shr_record_of_loc].
    rewrite digits_52.
    replace (Z.pos (digits2_pos m) + 52 + (e + -52))
      with (Z.pos (digits2_pos m) + e) by lia.
    fold F64.prec F64.emax in *. rewrite Hc.
    replace (e - (e + -52)) with 52 by lia.
    cbn [shr]. rewrite shr_52.
    cbn [shr_m loc_of_shr_record round_nearest_even].
    replace (e + -52 + 52) with e by lia.
    now apply round_final.
Qed.

Lemma div_eucl_exact (a b q : Z) :
  0 < b -> a = q * b -> Z.div_eucl a b = (q, 0).
Proof.
  intros Hb Ha.
  pose proof (Z_div_mod a b ltac:(lia)) as Hdm.
  destruct (Z.div_eucl a b) as [q' r]. destruct Hdm as [Hdm Hr].
  assert (q' = q) by nia. subst q'. f_equal. lia.
Qed.

Lemma round_canonical (s : bool) (m : positive) (e : Z) :
  bounded F64.prec F64.emax m e = true ->
  binary_round_aux F64.prec F64.emax s (Z.pos m) e loc_Exact = S754_finite s m e.
Proof.
  intros Hv. pose proof Hv as Hv'.
  unfold bounded, canonical_mantissa in Hv'. apply andb_prop in Hv' as [Hc Hb].
  apply Z.eqb_eq in Hc.
  unfold binary_round_aux at 1. unfold shr_fexp at 1.
  cbn [Zdigits2 shr_record_of_loc].
  rewrite Hc, Z.sub_diag.
  cbn [shr shr_m loc_of_shr_record round_nearest_even].
  now apply round_final.
Qed.

Lemma round_doubled (s : bool) (m : positive) (e : Z) :
  bounded F64.prec F64.emax m e = true ->
  binary_round_aux F64.prec F64.emax s (Z.pos m~0) (e - 1) loc_Exact
  = S754_finite s m e.
Proof.
  intros Hv. pose proof Hv as Hv'.
  unfold bounded, canonical_mantissa in Hv'. apply andb_prop in Hv' as [Hc Hb].
  apply Z.eqb_eq in Hc.
  unfold binary_round_aux at 1. unfold shr_fexp at 1.
  cbn [Zdigits2 shr_record_of_loc digits2_pos].
  rewrite Pos2Z.inj_succ.
  replace (Z.succ (Z.pos (digits2_pos m)) + (e - 1))
    with (Z.pos (digits2_pos m) + e) by lia.
  rewrite Hc. replace (e - (e - 1)) with 1 by lia.
  cbn [shr SpecFloat.iter_pos shr_1 shr_m loc_of_shr_record round_nearest_even].
  replace (e - 1 + 1) with e by lia.
  now apply round_final.
Qed.

(** So is dividing by [1.0] or [-1.0]. *)
Lemma div_unit (x : F64.t) (sy : bool) :
  valid_binary F64.prec F64.emax x = true ->
  (x / S754_finite sy 4503599627370496 (-52))%F
  = if sy then SFopp x else x.
Proof.
  destruct x as [s|s| |s m e]; intros Hv.
  - now destruct s, sy.
  - now destruct s, sy.
  - now destruct sy.
  - cbn [valid_binary] in Hv. pose proof Hv as Hv'.
    unfold bounded, canonical_mantissa in Hv'. apply andb_prop in Hv' as [Hc Hb].
    apply Z.eqb_eq in Hc.
    transitivity (S754_finite (xorb s sy) m e);
      [| now destruct s, sy].
    unfold F64.div, SFdiv.
    unfold SFdiv_core_binary.
    change (Zdigits2 4503599627370496) with 53.
    cbn [Zdigits2].
    fold F64.prec F64.emax.
    set (d := Z.pos (digits2_pos m)) in *.
    assert (Hd : 0 < d) by (subst d; lia).
    unfold fexp, emin, F64.prec, F64.emax in Hc |- *.
    destruct (Z.eq_dec e (-1074)) as [He|He].
    + assert (Hd' : d <= 53) by lia.
      replace (Z.min (Z.max (d + e - (53 + -52) - 53) (3 - 1024 - 53)) (e - -52))
        with e by lia.
      replace (e - -52 - e) with 52 by lia.
      rewrite Z.shiftl_mul_pow2 by lia.
      rewrite (div_eucl_exact _ _ (Z.pos m)) by (cbn; lia).
      change (new_location 4503599627370496 0) with loc_Exact.
      now apply round_canonical.
    + assert (Hd' : d = 53) by lia.
      replace (Z.min (Z.max (d + e - (53 + -52) - 53) (3 - 1024 - 53)) (e - -52))
        with (e - 1) by lia.
      replace (e - -52 - (e - 1)) with 53 by lia.
      rewrite Z.shiftl_mul_pow2 by lia.
      rewrite (div_eucl_exact _ _ (Z.pos m~0)) by (cbn; lia).
      change (new_location 4503599627370496 0) with loc_Exact.
      now apply round_doubled.
Qed.

Lemma valid_opp (x : F64.t) :
  valid_binary F64.prec F64.emax (SFopp x)
  = valid_binary F64.prec F64.emax x.
Proof. now destruct x. Qed.

Lemma opp_opp (x : F64.t) : SFopp (SFopp x) = x.
Proof. destruct x as [s|s| |s m e]; cbn; now rewrite ?negb_involutive. Qed.

(** The sign of a number that is neither zero nor NaN is [1.0] or [-1.0]. *)
Lemma sign_unit (x : F64.t) :
  x <> S754_nan -> (x == F64.zero)%F = false ->
  exists sy, F64.sign x = S754_finite sy 4503599627370496 (-52).
Proof.
  intros Hnan Hz. destruct x as [s|s| |s m e]; try congruence.
  - now destruct s.
  - destruct s; [exists true | exists false]; reflexivity.
  - destruct s; [exists true | exists false]; reflexivity.
Qed.

(** Dividing by the sign and multiplying by it again, as [geomspace] does
    to its two ends, gives the number back. *)
Lemma div_mul_sign (x s : F64.t) (sy : bool) :
  s = S754_finite sy 4503599627370496 (-52) ->
  valid_binary F64.prec F64.emax x = true ->
  (x / s * s)%F = x.
Proof.
  intros -> Hv. rewrite div_unit by exact Hv. destruct sy.
  - rewrite mul_unit by now rewrite valid_opp. apply opp_opp.
  - now rewrite mul_unit.
Qed.

Lemma geomspace_ends `{Libm} (start stop : F64.t) (num : Z) (a : list F64.t) :
  np.geomspace start stop num = Ok a ->
  valid_binary F64.prec F64.emax start = true ->
  valid_binary F64.prec F64.emax stop = true ->
  start <> S754_nan ->
  1 < num ->
  a !! 0%nat = Some start /\ a !! Nat.pred (Z.to_nat num) = Some stop.
Proof.
  intros Ha Hv1 Hv2 Hnan Hn.
  destruct (geomspace_length start stop num a ltac:(lia) Ha) as [Hz _].
  destruct (geomspace_ok start stop num Hz ltac:(lia))
    as (y & a' & _ & Ha' & _ & H0 & H1 & _).
  rewrite Ha in Ha'. injection Ha' as <-.
  destruct (sign_unit start Hnan) as [sy Hs].
  { unfold has_zero_bound in Hz. cbn [fst snd] in Hz.
    now apply orb_false_elim in Hz as [Hz _]. }
  rewrite H0, H1 by lia.
  now rewrite !(div_mul_sign _ _ sy Hs).
Qed.

(** X7: whenever a load succeeds and the configured geometric bounds are
    binary64 numbers with a start that is not NaN, the first and last
    points of [hmodel_ks] and of [hmodel_ms] are exactly the configured
    bounds, for any libm: [geomspace] overwrites both ends, and dividing
    and multiplying them by the sign [1.0] or [-1.0] is exact. *)
Theorem hmodel_grid_ends `{Libm} (cfg : config) (m : gmap string value) :
  load cfg = Ok m ->
  valid_binary F64.prec F64.emax (fst (cfg_ks cfg)) = true ->
  valid_binary F64.prec F64.emax (snd (cfg_ks cfg)) = true ->
  valid_binary F64.prec F64.emax (fst (cfg_ms cfg)) = true ->
  valid_binary F64.prec F64.emax (snd (cfg_ms cfg)) = true ->
  fst (cfg_ks cfg) <> S754_nan ->
  fst (cfg_ms cfg) <> S754_nan ->
  exists ks ms,
    m !! "hmodel_ks"%string = Some (VArray ks)
    /\ ks !! 0%nat = Some (fst (cfg_ks cfg))
    /\ ks !! 999%nat = Some (snd (cfg_ks cfg))
    /\ m !! "hmodel_ms"%string = Some (VArray ms)
    /\ ms !! 0%nat = Some (fst (cfg_ms cfg))
    /\ ms !! 39%nat = Some (snd (cfg_ms cfg)).
Proof.
  intros Hl Hk1 Hk2 Hm1 Hm2 Hkn Hmn.
  destruct (body_inv cfg ∅ m Hl) as (edges & ks & ms & _ & Hk & Hm & ->).
  destruct (geomspace_ends _ _ _ _ Hk Hk1 Hk2 Hkn ltac:(lia)) as [Hk0 Hk999].
  destruct (geomspace_ends _ _ _ _ Hm Hm1 Hm2 Hmn ltac:(lia)) as [Hm0 Hm39].
  exists ks, ms. rewrite !bind_all_lookup.
  split; [reflexivity |]. split; [exact Hk0 |]. split; [exact Hk999 |].
  split; [reflexivity |]. split; [exact Hm0 | exact Hm39].
Qed.

(** ** Instances of the further properties *)

Lemma source_load_ok :
  exists m, @load libm_any source_config = Ok m.
Proof.
  destruct source_bounds_nonzero as [Hzk Hzm].
  destruct (@body_ok libm_any source_config ∅ ltac:(simpl; lia) Hzk Hzm)
    as (edges & ks & ms & _ & _ & _ & Hb).
  eexists. exact Hb.
Qed.

Lemma other_not_module_name : ~ In "other"%string module_names.
Proof.
  unfold module_names. intros Hin.
  repeat (destruct Hin as [Hin|Hin]; [discriminate Hin |]).
  exact Hin.
Qed.

(** X1 at the source's configuration. *)
Lemma load_shapes_witness :
  exists m,
    @load libm_any source_config = Ok m
    /\ exists edges centers ks ms,
         m !! "kbin_edges"%string = Some (VArray edges)
         /\ m !! "kbin_centers"%string = Some (VArray centers)
         /\ m !! "hmodel_ks"%string = Some (VArray ks)
         /\ m !! "hmodel_ms"%string = Some (VArray ms)
         /\ length edges = Z.to_nat (cfg_nkbins source_config + 1)
         /\ length centers = Z.to_nat (cfg_nkbins source_config)
         /\ length ks = 1000%nat
         /\ length ms = 40%nat.
Proof.
  destruct source_load_ok as [m Hm]. exists m.
  split; [exact Hm | exact (@load_shapes libm_any source_config m Hm)].
Defined.

(** X2 at the source's configuration. *)
Lemma kbin_edges_last_witness :
  exists m,
    @load libm_any source_config = Ok m
    /\ 1 <= cfg_nkbins source_config
    /\ exists edges,
         m !! "kbin_edges"%string = Some (VArray edges)
         /\ length edges = S (Z.to_nat (cfg_nkbins source_config))
         /\ edges !! Z.to_nat (cfg_nkbins source_config) = Some (F64.dec 3 1)
         /\ last edges = Some (F64.dec 3 1).
Proof.
  destruct source_load_ok as [m Hm]. exists m.
  assert (Hn : 1 <= cfg_nkbins source_config) by (simpl; lia).
  split; [exact Hm |]. split; [exact Hn |].
  exact (@kbin_edges_last libm_any source_config m Hm Hn).
Defined.

(** X3 at a prior namespace that binds the foreign name [other]. *)
Lemma body_frame_witness :
  exists m,
    @body libm_any source_config (<["other"%string := VInt 7]> ∅) = Ok m
    /\ ~ In "other"%string module_names
    /\ m !! "other"%string = Some (VInt 7).
Proof.
  destruct source_bounds_nonzero as [Hzk Hzm].
  destruct (@body_ok libm_any source_config (<["other"%string := VInt 7]> ∅)
              ltac:(simpl; lia) Hzk Hzm)
    as (edges & ks & ms & _ & _ & _ & Hb).
  eexists. split; [exact Hb |]. split; [exact other_not_module_name |].
  rewrite (@body_frame libm_any _ _ _ _ Hb other_not_module_name).
  apply lookup_insert_eq.
Defined.


(** X5 at a fresh load of the source's configuration. *)
Lemma body_idempotent_witness :
  exists m,
    @body libm_any source_config ∅ = Ok m
    /\ @body libm_any source_config m = Ok m.
Proof.
  destruct source_load_ok as [m Hm]. exists m.
  split; [exact Hm | exact (@body_idempotent libm_any source_config ∅ m Hm)].
Defined.

(** X6 at bin count 3, last bin. *)
Lemma kbin_centers_inside_witness :
  0 <= 3 <= 200 /\ (2 < Z.to_nat 3)%nat
  /\ exists edges centers a b c,
       getattr (@load libm_any (with_nkbins 3)) "kbin_edges"
       = Ok (VArray edges)
       /\ getattr (@load libm_any (with_nkbins 3)) "kbin_centers"
          = Ok (VArray centers)
       /\ edges !! 2%nat = Some a /\ edges !! 3%nat = Some b
       /\ centers !! 2%nat = Some c
       /\ (a < c)%F = true /\ (c < b)%F = true.
Proof.
  split; [lia |]. split; [simpl; lia |].
  destruct (@kbin_centers_inside libm_any 3 ltac:(lia))
    as (edges & centers & He & Hc & _ & Hall).
  destruct (Hall 2%nat ltac:(simpl; lia))
    as (a & b & c & Ha & Hb & Hcc & _ & H1 & H2).
  exists edges, centers, a, b, c. repeat split; assumption.
Defined.

Lemma source_bounds_numbers :
  valid_binary F64.prec F64.emax (fst (cfg_ks source_config)) = true
  /\ valid_binary F64.prec F64.emax (snd (cfg_ks source_config)) = true
  /\ valid_binary F64.prec F64.emax (fst (cfg_ms source_config)) = true
  /\ valid_binary F64.prec F64.emax (snd (cfg_ms source_config)) = true
  /\ fst (cfg_ks source_config) <> S754_nan
  /\ fst (cfg_ms source_config) <> S754_nan.
Proof.
  repeat split; try (vm_compute; reflexivity);
    intros E; vm_compute in E; discriminate E.
Qed.

(** X7 at the source's configuration. *)
Lemma hmodel_grid_ends_witness :
  exists m ks ms,
    @load libm_any source_config = Ok m
    /\ m !! "hmodel_ks"%string = Some (VArray ks)
    /\ ks !! 0%nat = Some (F64.dec 1 5)
    /\ ks !! 999%nat = Some (F64.of_Z 100)
    /\ m !! "hmodel_ms"%string = Some (VArray ms)
    /\ ms !! 0%nat = Some (F64.of_Z (2 * 10 ^ 10))
    /\ ms !! 39%nat = Some (F64.of_Z (10 ^ 17)).
Proof.
  destruct source_load_ok as [m Hm].
  destruct source_bounds_numbers as (Hk1 & Hk2 & Hm1 & Hm2 & Hkn & Hmn).
  destruct (@hmodel_grid_ends libm_any source_config m Hm Hk1 Hk2 Hm1 Hm2
              Hkn Hmn) as (ks & ms & H).
  exists m, ks, ms. split; [exact Hm | exact H].
Defined.

(** ** A reload is a fresh load laid over the prior namespace *)

Lemma lookup_bindings_default (x : string) (bs : list (string * value))
    (d : option value) :
  lookup_bindings x bs d
  = match lookup_bindings x bs None with Some v => Some v | None => d end.
Proof.
  destruct (in_dec string_dec x (map fst bs)) as [Hin|Hout].
  - destruct (lookup_bindings_bound x bs Hin) as [v Hv]. now rewrite !Hv.
  - now rewrite !lookup_bindings_other.
Qed.

(** X8: running the module body in a prior namespace [ns] does what a
    fresh load does: it raises the same error when the fresh load raises,
    and otherwise leaves the fresh load's bindings laid over [ns] (the
    module's names take the fresh values, every other name keeps its
    prior binding), whatever the configuration. *)
Theorem body_is_load_over `{Libm} (cfg : config) (ns : gmap string value) :
  body cfg ns = (let? m := load cfg in Ok (m ∪ ns)).
Proof.
  unfold load. rewrite !body_eq.
  destruct (np.linspace _ _ _) as [edges|e]; [| reflexivity].
  destruct (np.geomspace _ _ 1000) as [ks|e]; [| reflexivity].
  destruct (np.geomspace _ _ 40) as [ms|e]; [| reflexivity].
  cbn [rbind]. f_equal. apply map_eq. intros x.
  rewrite lookup_union, !bind_all_lookup, lookup_empty.
  rewrite (lookup_bindings_default x _ (ns !! x)).
  destruct (lookup_bindings x _ None) as [v|]; [| now destruct (ns !! x)].
  now destruct (ns !! x).
Qed.

(** ** How accurate the bins are *)

Lemma bins_accurate_range (n : nat) :
  (1 <= n <= 200)%nat -> bins_accurate n = true.
Proof.
  intros Hn.
  assert (Hall : forallb bins_accurate (seq 1 200) = true)
    by (vm_compute; reflexivity).
  rewrite forallb_forall in Hall. apply Hall. apply in_seq. lia.
Qed.

(** X9: for every bin count [n] from 1 to 200, the edges of every bin are
    within [2^-53] (about 1.1e-16) of the exact grid points [i * 0.3 / n]
    and [(i+1) * 0.3 / n], and the bin's center is within [2^-53] of the
    exact midpoint [(2i+1) * 0.3 / (2n)]. *)
Theorem kbin_bins_accurate `{Libm} (n : Z) :
  1 <= n <= 200 ->
  exists edges centers,
    getattr (load (with_nkbins n)) "kbin_edges" = Ok (VArray edges)
    /\ getattr (load (with_nkbins n)) "kbin_centers" = Ok (VArray centers)
    /\ forall i : nat, (i < Z.to_nat n)%nat ->
         exists a b c,
           edges !! i = Some a /\ edges !! S i = Some b
           /\ centers !! i = Some c
           /\ F64.within a (3 * Z.of_nat i # 10 * Z.to_pos n) (1 # 2 ^ 53)
              = true
           /\ F64.within b (3 * Z.of_nat (S i) # 10 * Z.to_pos n) (1 # 2 ^ 53)
              = true
           /\ F64.within c (3 * (2 * Z.of_nat i + 1) # 20 * Z.to_pos n)
                (1 # 2 ^ 53) = true.
Proof.
  intros Hn.
  destruct (load_with_nkbins n) as (edges & ks & ms & He & _ & Hl); [lia |].
  pose proof (bins_accurate_range (Z.to_nat n) ltac:(lia)) as Hok.
  unfold bins_accurate in Hok. rewrite Z2Nat.id in Hok by lia.
  rewrite He in Hok. cbv zeta in Hok.
  exists edges, (midpoints edges). rewrite Hl.
  split; [now apply getattr_bound |].
  split; [now apply getattr_bound |].
  intros i Hi.
  destruct (check_pairs_sound _ _ _ i Hok Hi) as (a & b & Ha & Hb & HP).
  cbv beta in HP.
  apply andb_prop in HP as [HP H3]. apply andb_prop in HP as [H1 H2].
  exists a, b, ((a + b) / F64.two)%F.
  split; [exact Ha |]. split; [exact Hb |].
  split; [now apply midpoint_lookup |]. auto.
Qed.

(** X9 at bin count 7, bin 3. *)
Lemma kbin_bins_accurate_witness :
  1 <= 7 <= 200 /\ (3 < Z.to_nat 7)%nat
  /\ exists edges centers a c,
       getattr (@load libm_any (with_nkbins 7)) "kbin_edges"
       = Ok (VArray edges)
       /\ getattr (@load libm_any (with_nkbins 7)) "kbin_centers"
          = Ok (VArray centers)
       /\ edges !! 3%nat = Some a /\ centers !! 3%nat = Some c
       /\ F64.within a (3 * 3 # 10 * 7) (1 # 2 ^ 53) = true
       /\ F64.within c (3 * 7 # 20 * 7) (1 # 2 ^ 53) = true.
Proof.
  split; [lia |]. split; [simpl; lia |].
  destruct (@kbin_bins_accurate libm_any 7 ltac:(lia))
    as (edges & centers & He & Hc & Hall).
  destruct (Hall 3%nat ltac:(simpl; lia))
    as (a & b & c & Ha & Hb & Hcc & H1 & _ & H3).
  exists edges, centers, a, c. repeat split; assumption.
Defined.
